(** * Registration hooks of chainlit/callbacks.py

    A shallow embedding of [backend/chainlit/callbacks.py]: the decorators
    that store user callbacks into the process-wide [config.code] object.

    Python callables are first-class values with an identity, so they are
    terms here; the decorators are programs of a small state-and-exception
    monad over the interpreter state they touch. *)

From stdpp Require Import base strings gmap list.

Open Scope string_scope.
Open Scope nat_scope.
Open Scope list_scope.

(** ** Values passed to callbacks *)

(** The part of [chainlit.message.Message] that [with_parent_id] reads:
    [message.id] and [message.content]. *)
Record Message := { id : string; content : string }.

(** An argument handed to a callback: a message, or any other object
    (which has neither [id] nor [content]). *)
Inductive value :=
| Msg (m : Message)
| Obj (repr : string).

(** ** Callables *)

(** A callable object.

    - [function name parameters] is a function defined by user code, with
      the parameter names [inspect.signature] reports for it.
    - [wrapper f with_task] is the wrapper that [wrap_user_function]
      builds around [f].
    - [step_wrapper f name type] is the object that [step] builds from
      [f].
    - [with_parent_id func] is the closure [on_message] defines around
      its argument [func]. *)
Inductive callable :=
| function (name : string) (parameters : list string)
| wrapper (f : callable) (with_task : option bool)
| step_wrapper (f : callable) (name type : string)
| with_parent_id (func : callable).

(** Modelled from the spec: wrap_user_function (chainlit.utils) is outside
    this file.  The spec has it return a wrapped reference to the user
    function, as opposed to the original function: a new callable around
    [user_function].  [with_task] is the keyword argument of the call,
    [None] when the call leaves it to its default. *)
Definition wrap_user_function (user_function : callable)
    (with_task : option bool) : callable :=
  wrapper user_function with_task.

(** Modelled from the spec: step (chainlit.step) is outside this file and
    the spec says nothing of it; [step f name type] is the object the
    call [step(f, name=name, type=type)] returns. *)
Definition step (original_function : callable) (name type : string)
    : callable :=
  step_wrapper original_function name type.

(** [inspect.signature(c).parameters].  [with_parent_id] declares the one
    parameter [message]; a wrapper stands for the function it wraps and
    reports that function's parameters. *)
Fixpoint parameters (c : callable) : list string :=
  match c with
  | function _ ps => ps
  | wrapper f _ => parameters f
  | step_wrapper f _ _ => parameters f
  | with_parent_id _ => ["message"]
  end.

(** Number of wrappers around the innermost function. *)
Fixpoint depth (c : callable) : nat :=
  match c with
  | function _ _ => 0
  | wrapper f _ => S (depth f)
  | step_wrapper f _ _ => S (depth f)
  | with_parent_id f => S (depth f)
  end.

(** ** Calling a callable *)

Inductive exn :=
| ValueError (msg : string)
| TypeError
| AttributeError.

(** What a call leaves behind, in order. *)
Inductive event :=
| Step_enter (name type : string) (parent_id : string)
| Step_input (input : string)
| Step_exit
| Call (f : callable) (args : list value).

Inductive outcome :=
| Returns
| Raises (e : exn).

(** Modelled from the spec: what calling the wrapper of wrap_user_function
    does is outside this file; the spec has it only normalize the calling
    convention and the execution context, so the wrapper forwards its
    arguments to the function it wraps.

    [invoke c args] is the call of [c] on the positional arguments
    [args].  A user function and the result of [step] are opaque: the
    call is recorded.  [with_parent_id] is the closure of this file:
<<
    async def with_parent_id(message: Message):
        async with Step(name="on_message", type="run", parent_id=message.id) as s:
            s.input = message.content
            if len(inspect.signature(func).parameters) > 0:
                await func(message)
            else:
                await func()
>>
    It takes exactly one argument, reads [message.id] before the step is
    entered, and the step is left whatever the body does. *)
Fixpoint invoke (c : callable) (args : list value) : list event * outcome :=
  match c with
  | function _ _ => ([Call c args], Returns)
  | step_wrapper _ _ _ => ([Call c args], Returns)
  | wrapper f _ => invoke f args
  | with_parent_id func =>
      match args with
      | [Msg message] =>
          let body :=
            if 0 <? length (parameters func)
            then invoke func [Msg message]
            else invoke func [] in
          ([Step_enter "on_message" "run" (id message);
            Step_input (content message)] ++ body.1 ++ [Step_exit],
           body.2)
      | [Obj _] => ([], Raises AttributeError)
      | _ => ([], Raises TypeError)
      end
  end.

(** ** The configuration object *)

Module code.

(** Modelled from the spec: config.code (chainlit.config) is outside this
    file; it is the shared object with one optional callback per named
    slot.  These are the attributes this file assigns: twenty-three
    optional callables, unset ([None]) until registered, and the
    dictionary [action_callbacks]. *)
Record t := mk {
  on_app_startup : option callable;
  on_app_shutdown : option callable;
  password_auth_callback : option callable;
  header_auth_callback : option callable;
  oauth_callback : option callable;
  on_logout : option callable;
  on_message : option callable;
  on_window_message : option callable;
  on_chat_start : option callable;
  on_chat_resume : option callable;
  set_chat_profiles : option callable;
  set_starters : option callable;
  on_chat_end : option callable;
  on_audio_start : option callable;
  on_audio_chunk : option callable;
  on_audio_end : option callable;
  author_rename : option callable;
  on_mcp_connect : option callable;
  on_mcp_disconnect : option callable;
  on_stop : option callable;
  action_callbacks : gmap string callable;
  on_settings_update : option callable;
  data_layer : option callable;
  on_feedback : option callable
}.

End code.

Module attr.

(** The names of the callable-valued attributes of [config.code]. *)
Inductive t :=
| on_app_startup | on_app_shutdown | password_auth_callback
| header_auth_callback | oauth_callback | on_logout | on_message
| on_window_message | on_chat_start | on_chat_resume | set_chat_profiles
| set_starters | on_chat_end | on_audio_start | on_audio_chunk
| on_audio_end | author_rename | on_mcp_connect | on_mcp_disconnect
| on_stop | on_settings_update | data_layer | on_feedback.

Definition eqb (a b : t) : bool :=
  match a, b with
  | on_app_startup, on_app_startup | on_app_shutdown, on_app_shutdown
  | password_auth_callback, password_auth_callback
  | header_auth_callback, header_auth_callback
  | oauth_callback, oauth_callback | on_logout, on_logout
  | on_message, on_message | on_window_message, on_window_message
  | on_chat_start, on_chat_start | on_chat_resume, on_chat_resume
  | set_chat_profiles, set_chat_profiles | set_starters, set_starters
  | on_chat_end, on_chat_end | on_audio_start, on_audio_start
  | on_audio_chunk, on_audio_chunk | on_audio_end, on_audio_end
  | author_rename, author_rename | on_mcp_connect, on_mcp_connect
  | on_mcp_disconnect, on_mcp_disconnect | on_stop, on_stop
  | on_settings_update, on_settings_update | data_layer, data_layer
  | on_feedback, on_feedback => true
  | _, _ => false
  end.

End attr.

(** [getattr(config.code, a)] *)
Definition getattr (a : attr.t) (c : code.t) : option callable :=
  match a with
  | attr.on_app_startup => code.on_app_startup c
  | attr.on_app_shutdown => code.on_app_shutdown c
  | attr.password_auth_callback => code.password_auth_callback c
  | attr.header_auth_callback => code.header_auth_callback c
  | attr.oauth_callback => code.oauth_callback c
  | attr.on_logout => code.on_logout c
  | attr.on_message => code.on_message c
  | attr.on_window_message => code.on_window_message c
  | attr.on_chat_start => code.on_chat_start c
  | attr.on_chat_resume => code.on_chat_resume c
  | attr.set_chat_profiles => code.set_chat_profiles c
  | attr.set_starters => code.set_starters c
  | attr.on_chat_end => code.on_chat_end c
  | attr.on_audio_start => code.on_audio_start c
  | attr.on_audio_chunk => code.on_audio_chunk c
  | attr.on_audio_end => code.on_audio_end c
  | attr.author_rename => code.author_rename c
  | attr.on_mcp_connect => code.on_mcp_connect c
  | attr.on_mcp_disconnect => code.on_mcp_disconnect c
  | attr.on_stop => code.on_stop c
  | attr.on_settings_update => code.on_settings_update c
  | attr.data_layer => code.data_layer c
  | attr.on_feedback => code.on_feedback c
  end.

(** [setattr(config.code, a, v)]: the attribute [a] becomes [v], every
    other attribute keeps its value. *)
Definition setattr (a : attr.t) (v : option callable) (c : code.t) : code.t :=
  let new b := if attr.eqb a b then v else getattr b c in
  {| code.on_app_startup := new attr.on_app_startup;
     code.on_app_shutdown := new attr.on_app_shutdown;
     code.password_auth_callback := new attr.password_auth_callback;
     code.header_auth_callback := new attr.header_auth_callback;
     code.oauth_callback := new attr.oauth_callback;
     code.on_logout := new attr.on_logout;
     code.on_message := new attr.on_message;
     code.on_window_message := new attr.on_window_message;
     code.on_chat_start := new attr.on_chat_start;
     code.on_chat_resume := new attr.on_chat_resume;
     code.set_chat_profiles := new attr.set_chat_profiles;
     code.set_starters := new attr.set_starters;
     code.on_chat_end := new attr.on_chat_end;
     code.on_audio_start := new attr.on_audio_start;
     code.on_audio_chunk := new attr.on_audio_chunk;
     code.on_audio_end := new attr.on_audio_end;
     code.author_rename := new attr.author_rename;
     code.on_mcp_connect := new attr.on_mcp_connect;
     code.on_mcp_disconnect := new attr.on_mcp_disconnect;
     code.on_stop := new attr.on_stop;
     code.action_callbacks := code.action_callbacks c;
     code.on_settings_update := new attr.on_settings_update;
     code.data_layer := new attr.data_layer;
     code.on_feedback := new attr.on_feedback |}.

(** [config.code.action_callbacks[name] = v]: the dictionary is updated in
    place, the attributes are not assigned. *)
Definition setitem_action_callbacks (name : string) (v : callable)
    (c : code.t) : code.t :=
  {| code.on_app_startup := code.on_app_startup c;
     code.on_app_shutdown := code.on_app_shutdown c;
     code.password_auth_callback := code.password_auth_callback c;
     code.header_auth_callback := code.header_auth_callback c;
     code.oauth_callback := code.oauth_callback c;
     code.on_logout := code.on_logout c;
     code.on_message := code.on_message c;
     code.on_window_message := code.on_window_message c;
     code.on_chat_start := code.on_chat_start c;
     code.on_chat_resume := code.on_chat_resume c;
     code.set_chat_profiles := code.set_chat_profiles c;
     code.set_starters := code.set_starters c;
     code.on_chat_end := code.on_chat_end c;
     code.on_audio_start := code.on_audio_start c;
     code.on_audio_chunk := code.on_audio_chunk c;
     code.on_audio_end := code.on_audio_end c;
     code.author_rename := code.author_rename c;
     code.on_mcp_connect := code.on_mcp_connect c;
     code.on_mcp_disconnect := code.on_mcp_disconnect c;
     code.on_stop := code.on_stop c;
     code.action_callbacks := <[name := v]> (code.action_callbacks c);
     code.on_settings_update := code.on_settings_update c;
     code.data_layer := code.data_layer c;
     code.on_feedback := code.on_feedback c |}.

(** Modelled from the spec: the initial value of config.code is set up
    outside this file; the spec has every slot unset at process startup. *)
Definition unset : code.t :=
  code.mk None None None None None None None None None None None None None
          None None None None None None None ∅ None None None.

(** ** The interpreter state and the monad of the decorators *)

(** The state a decorator of this file can see: the provider ids that
    [get_configured_oauth_providers()] reports (they come from the
    environment, which this file never writes), and [config.code]. *)
Record state := {
  configured_oauth_providers : list string;
  config_code : code.t
}.

(** A call either returns a value or raises; both leave a state behind. *)
Inductive result (A : Type) :=
| Return (a : A) (s : state)
| Raise (e : exn) (s : state).
Arguments Return {A} a s.
Arguments Raise {A} e s.

Definition M (A : Type) : Type := state → result A.

#[global] Instance M_ret : MRet M := λ A a s, Return a s.

#[global] Instance M_bind : MBind M := λ A B k m s,
  match m s with
  | Return a s' => k a s'
  | Raise e s' => Raise e s'
  end.

Definition raise {A : Type} (e : exn) : M A := λ s, Raise e s.

(** The state a result leaves behind. *)
Definition final {A : Type} (r : result A) : state :=
  match r with
  | Return _ s => s
  | Raise _ s => s
  end.

Definition raises {A : Type} (r : result A) : Prop :=
  match r with
  | Return _ _ => False
  | Raise _ _ => True
  end.

(** Modelled from the spec: get_configured_oauth_providers
    (chainlit.oauth_providers) is outside this file; it reports the
    providers configured through the environment. *)
Definition get_configured_oauth_providers : M (list string) :=
  λ s, Return (configured_oauth_providers s) s.

(** [config.code.a = v] *)
Definition assign (a : attr.t) (v : callable) : M unit :=
  λ s, Return () {| configured_oauth_providers := configured_oauth_providers s;
                    config_code := setattr a (Some v) (config_code s) |}.

(** [config.code.action_callbacks[name] = v] *)
Definition assign_action_callback (name : string) (v : callable) : M unit :=
  λ s, Return () {| configured_oauth_providers := configured_oauth_providers s;
                    config_code := setitem_action_callbacks name v (config_code s) |}.

(** ** callbacks.py *)

Module callbacks.

Definition on_app_startup (func : callable) : M callable :=
  assign attr.on_app_startup (wrap_user_function func (Some false));;
  mret func.

Definition on_app_shutdown (func : callable) : M callable :=
  assign attr.on_app_shutdown (wrap_user_function func (Some false));;
  mret func.

Definition password_auth_callback (func : callable) : M callable :=
  assign attr.password_auth_callback (wrap_user_function func None);;
  mret func.

Definition header_auth_callback (func : callable) : M callable :=
  assign attr.header_auth_callback (wrap_user_function func None);;
  mret func.

Definition oauth_callback (func : callable) : M callable :=
  providers ← get_configured_oauth_providers;
  (if length providers =? 0
   then raise (ValueError "You must set the environment variable for at least one oauth provider to use oauth authentication.")
   else mret ());;
  assign attr.oauth_callback (wrap_user_function func None);;
  mret func.

Definition on_logout (func : callable) : M callable :=
  assign attr.on_logout (wrap_user_function func None);;
  mret func.

Definition on_message (func : callable) : M callable :=
  assign attr.on_message (wrap_user_function (with_parent_id func) None);;
  mret func.

Definition on_window_message (func : callable) : M callable :=
  assign attr.on_window_message (wrap_user_function func None);;
  mret func.

Definition on_chat_start (func : callable) : M callable :=
  assign attr.on_chat_start
    (wrap_user_function (step func "on_chat_start" "run") (Some true));;
  mret func.

Definition on_chat_resume (func : callable) : M callable :=
  assign attr.on_chat_resume (wrap_user_function func (Some true));;
  mret func.

Definition set_chat_profiles (func : callable) : M callable :=
  assign attr.set_chat_profiles (wrap_user_function func None);;
  mret func.

Definition set_starters (func : callable) : M callable :=
  assign attr.set_starters (wrap_user_function func None);;
  mret func.

Definition on_chat_end (func : callable) : M callable :=
  assign attr.on_chat_end (wrap_user_function func (Some true));;
  mret func.

Definition on_audio_start (func : callable) : M callable :=
  assign attr.on_audio_start (wrap_user_function func (Some false));;
  mret func.

Definition on_audio_chunk (func : callable) : M callable :=
  assign attr.on_audio_chunk (wrap_user_function func (Some false));;
  mret func.

Definition on_audio_end (func : callable) : M callable :=
  assign attr.on_audio_end
    (wrap_user_function (step func "on_audio_end" "run") (Some true));;
  mret func.

Definition author_rename (func : callable) : M callable :=
  assign attr.author_rename (wrap_user_function func None);;
  mret func.

Definition on_mcp_connect (func : callable) : M callable :=
  assign attr.on_mcp_connect (wrap_user_function func None);;
  mret func.

Definition on_mcp_disconnect (func : callable) : M callable :=
  assign attr.on_mcp_disconnect (wrap_user_function func None);;
  mret func.

Definition on_stop (func : callable) : M callable :=
  assign attr.on_stop (wrap_user_function func None);;
  mret func.

(** The inner [decorator] of [action_callback], closed over [name]. *)
Definition decorator (name : string) (func : callable) : M callable :=
  assign_action_callback name (wrap_user_function func (Some false));;
  mret func.

Definition action_callback (name : string) : M (callable → M callable) :=
  mret (decorator name).

Definition on_settings_update (func : callable) : M callable :=
  assign attr.on_settings_update (wrap_user_function func (Some true));;
  mret func.

(** No [wrap_user_function] here: the function is stored as it is. *)
Definition data_layer (func : callable) : M callable :=
  assign attr.data_layer func;;
  mret func.

Definition on_feedback (func : callable) : M callable :=
  assign attr.on_feedback (wrap_user_function func None);;
  mret func.

End callbacks.

(** ** Registration functions and the slots they write *)

(** A use of one of the registration functions of the file: a decorator
    that assigns an attribute (each is named after the attribute it
    assigns), or [action_callback(name)]. *)
Inductive hook :=
| Decorator (a : attr.t)
| Action_callback (name : string).

(** [register h func]: the decorator [h] applied to [func]; for
    [action_callback], the outer call and then the returned decorator. *)
Definition register (h : hook) (func : callable) : M callable :=
  match h with
  | Decorator attr.on_app_startup => callbacks.on_app_startup func
  | Decorator attr.on_app_shutdown => callbacks.on_app_shutdown func
  | Decorator attr.password_auth_callback => callbacks.password_auth_callback func
  | Decorator attr.header_auth_callback => callbacks.header_auth_callback func
  | Decorator attr.oauth_callback => callbacks.oauth_callback func
  | Decorator attr.on_logout => callbacks.on_logout func
  | Decorator attr.on_message => callbacks.on_message func
  | Decorator attr.on_window_message => callbacks.on_window_message func
  | Decorator attr.on_chat_start => callbacks.on_chat_start func
  | Decorator attr.on_chat_resume => callbacks.on_chat_resume func
  | Decorator attr.set_chat_profiles => callbacks.set_chat_profiles func
  | Decorator attr.set_starters => callbacks.set_starters func
  | Decorator attr.on_chat_end => callbacks.on_chat_end func
  | Decorator attr.on_audio_start => callbacks.on_audio_start func
  | Decorator attr.on_audio_chunk => callbacks.on_audio_chunk func
  | Decorator attr.on_audio_end => callbacks.on_audio_end func
  | Decorator attr.author_rename => callbacks.author_rename func
  | Decorator attr.on_mcp_connect => callbacks.on_mcp_connect func
  | Decorator attr.on_mcp_disconnect => callbacks.on_mcp_disconnect func
  | Decorator attr.on_stop => callbacks.on_stop func
  | Decorator attr.on_settings_update => callbacks.on_settings_update func
  | Decorator attr.data_layer => callbacks.data_layer func
  | Decorator attr.on_feedback => callbacks.on_feedback func
  | Action_callback name =>
      decorator ← callbacks.action_callback name;
      decorator func
  end.

(** A place of [config.code] that holds a callback: an attribute, or the
    entry of the [action_callbacks] dictionary under a name. *)
Inductive slot :=
| Attr (a : attr.t)
| Action_callbacks_item (name : string).

(** The callback a slot holds, if any. *)
Definition read (l : slot) (s : state) : option callable :=
  match l with
  | Attr a => getattr a (config_code s)
  | Action_callbacks_item name => code.action_callbacks (config_code s) !! name
  end.

(** The state with [v] in slot [l] and nothing else changed. *)
Definition store (l : slot) (v : callable) (s : state) : state :=
  {| configured_oauth_providers := configured_oauth_providers s;
     config_code :=
       match l with
       | Attr a => setattr a (Some v) (config_code s)
       | Action_callbacks_item name =>
           setitem_action_callbacks name v (config_code s)
       end |}.

(** The slot named after the registration function. *)
Definition target (h : hook) : slot :=
  match h with
  | Decorator a => Attr a
  | Action_callback name => Action_callbacks_item name
  end.

(** [writes h l]: some call of [h] changes what slot [l] holds. *)
Definition writes (h : hook) (l : slot) : Prop :=
  ∃ func s, read l (final (register h func s)) ≠ read l s.

(** The with_task argument each decorator passes to [wrap_user_function]. *)
Definition with_task_of (h : hook) : option bool :=
  match h with
  | Decorator attr.on_app_startup | Decorator attr.on_app_shutdown
  | Decorator attr.on_audio_start | Decorator attr.on_audio_chunk
  | Action_callback _ => Some false
  | Decorator attr.on_chat_start | Decorator attr.on_chat_resume
  | Decorator attr.on_chat_end | Decorator attr.on_audio_end
  | Decorator attr.on_settings_update => Some true
  | Decorator _ => None
  end.

(** What a registration leaves in its slot for [func]. *)
Definition stored (h : hook) (func : callable) : callable :=
  match h with
  | Decorator attr.data_layer => func
  | Decorator attr.on_message =>
      wrap_user_function (with_parent_id func) (with_task_of h)
  | Decorator attr.on_chat_start =>
      wrap_user_function (step func "on_chat_start" "run") (with_task_of h)
  | Decorator attr.on_audio_end =>
      wrap_user_function (step func "on_audio_end" "run") (with_task_of h)
  | _ => wrap_user_function func (with_task_of h)
  end.

(** The check a registration makes before it stores anything. *)
Definition precondition (h : hook) (s : state) : bool :=
  match h with
  | Decorator attr.oauth_callback =>
      negb (length (configured_oauth_providers s) =? 0)
  | _ => true
  end.

(** A state with every slot unset, as at process startup. *)
Definition startup (providers : list string) : state :=
  {| configured_oauth_providers := providers; config_code := unset |}.

#[global] Instance attr_eq_dec : EqDecision attr.t.
Proof. solve_decision. Defined.

#[global] Instance slot_eq_dec : EqDecision slot.
Proof. solve_decision. Defined.

#[global] Instance hook_eq_dec : EqDecision hook.
Proof. solve_decision. Defined.

(** ** Runs of several registrations *)

(** A module that applies registration functions one after another, as
    decorators are applied at import time: each statement runs in the
    state the previous one left, and the first one that raises ends the
    run. *)
Fixpoint register_all (rs : list (hook * callable)) : M unit :=
  match rs with
  | [] => mret ()
  | (h, func) :: rs => register h func;; register_all rs
  end.

(** What slot [l] is expected to hold after the registrations [rs] when
    it held [before]: the value of the last registration aimed at [l]. *)
Fixpoint last_stored (l : slot) (rs : list (hook * callable))
    (before : option callable) : option callable :=
  match rs with
  | [] => before
  | (h, func) :: rs =>
      last_stored l rs
        (if decide (target h = l) then Some (stored h func) else before)
  end.

(** Every slot that is set holds a value of the form its own registration
    function stores. *)
Definition shaped (s : state) : Prop :=
  ∀ h c, read (target h) s = Some c → ∃ func, c = stored h func.

(** ** Reading a trace *)





(** ** Attribute store *)

Lemma attr_eqb_eq a b : attr.eqb a b = true ↔ a = b.
Proof. destruct a, b; simpl; split; congruence. Qed.

Lemma attr_eqb_refl a : attr.eqb a a = true.
Proof. by apply attr_eqb_eq. Qed.

Lemma attr_eqb_ne a b : a ≠ b → attr.eqb a b = false.
Proof.
  intros Hne. destruct (attr.eqb a b) eqn:E; [|done].
  by apply attr_eqb_eq in E.
Qed.

Lemma getattr_setattr a b v c :
  getattr b (setattr a v c) = if attr.eqb a b then v else getattr b c.
Proof. by destruct b. Qed.

Lemma setattr_setattr a v w c : setattr a v (setattr a w c) = setattr a v c.
Proof. by destruct a. Qed.

Lemma getattr_setitem a name v c :
  getattr a (setitem_action_callbacks name v c) = getattr a c.
Proof. by destruct a. Qed.

Lemma setitem_setitem name v w c :
  setitem_action_callbacks name v (setitem_action_callbacks name w c)
  = setitem_action_callbacks name v c.
Proof.
  unfold setitem_action_callbacks; simpl. f_equal. apply insert_insert_eq.
Qed.

Lemma read_store_eq l v s : read l (store l v s) = Some v.
Proof.
  destruct l as [a|name]; simpl.
  - by rewrite getattr_setattr, attr_eqb_refl.
  - apply lookup_insert_eq.
Qed.

Lemma read_store_ne l l' v s : l ≠ l' → read l' (store l v s) = read l' s.
Proof.
  intros Hne. destruct l as [a|name], l' as [b|name']; simpl.
  - rewrite getattr_setattr, attr_eqb_ne; [done | congruence].
  - done.
  - apply getattr_setitem.
  - apply lookup_insert_ne. congruence.
Qed.

Lemma store_store l v w s : store l v (store l w s) = store l v s.
Proof.
  destruct l as [a|name]; unfold store; simpl; f_equal.
  - apply setattr_setattr.
  - apply setitem_setitem.
Qed.

Lemma read_startup providers l : read l (startup providers) = None.
Proof. destruct l as [[]|name]; simpl; [done.. | apply lookup_empty]. Qed.

Lemma target_inj h g : target h = target g → h = g.
Proof. destruct h, g; simpl; congruence. Qed.

(** ** What a registration does *)

(** Every registration either fails its check and raises with the state
    as it found it, or stores one value in its own slot and returns its
    argument. *)
Lemma register_run h func s :
  register h func s =
    if precondition h s
    then Return func (store (target h) (stored h func) s)
    else Raise (ValueError "You must set the environment variable for at least one oauth provider to use oauth authentication.") s.
Proof.
  destruct h as [[]|name]; try reflexivity.
  cbv [register callbacks.oauth_callback precondition mbind M_bind
       get_configured_oauth_providers].
  by destruct (length (configured_oauth_providers s) =? 0).
Qed.

Lemma register_raises h func s :
  raises (register h func s) ↔ precondition h s = false.
Proof.
  rewrite register_run. destruct (precondition h s); simpl; split; done.
Qed.

Lemma final_register h func s :
  final (register h func s) =
    if precondition h s then store (target h) (stored h func) s else s.
Proof. rewrite register_run. by destruct (precondition h s). Qed.

Lemma precondition_store h l v s :
  precondition h (store l v s) = precondition h s.
Proof. by destruct h as [[]|name]. Qed.

(** A wrapper is never the function it wraps. *)
Lemma stored_depth h func :
  h ≠ Decorator attr.data_layer → depth func < depth (stored h func).
Proof. destruct h as [[]|name]; simpl; intros Hne; try lia; done. Qed.

Lemma stored_is_func h func :
  stored h func = func ↔ h = Decorator attr.data_layer.
Proof.
  split; [|by intros ->].
  intros Heq. destruct (decide (h = Decorator attr.data_layer)) as [|Hne]; [done|].
  pose proof (stored_depth h func Hne) as Hlt. rewrite Heq in Hlt. lia.
Qed.

Lemma register_frame h func s l :
  l ≠ target h → read l (final (register h func s)) = read l s.
Proof.
  intros Hne. rewrite final_register. destruct (precondition h s); [|done].
  by apply read_store_ne.
Qed.

Lemma register_writes_target h : writes h (target h).
Proof.
  exists (function "f" []), (startup ["github"]).
  rewrite final_register.
  replace (precondition h (startup ["github"])) with true
    by (by destruct h as [[]|name]).
  by rewrite read_store_eq, read_startup.
Qed.

(** ** Runs on concrete inputs *)

Example register_on_message_then_data_layer :
  (callbacks.on_message (function "main" ["message"]);;
   callbacks.data_layer (function "get_data_layer" [])) (startup [])
  = Return (function "get_data_layer" [])
      {| configured_oauth_providers := [];
         config_code :=
           code.mk None None None None None None
             (Some (wrap_user_function
                      (with_parent_id (function "main" ["message"])) None))
             None None None None None None None None None None None None
             None ∅ None (Some (function "get_data_layer" [])) None |}.
Proof. reflexivity. Qed.

Example oauth_callback_without_provider :
  callbacks.oauth_callback (function "oauth" ["provider_id"; "token"])
    (startup [])
  = Raise (ValueError "You must set the environment variable for at least one oauth provider to use oauth authentication.")
      (startup []).
Proof. reflexivity. Qed.

Example invoke_stored_on_message :
  invoke
    (wrap_user_function (with_parent_id (function "main" ["message"])) None)
    [Msg {| id := "m1"; content := "hello" |}]
  = ([Step_enter "on_message" "run" "m1";
      Step_input "hello";
      Call (function "main" ["message"])
        [Msg {| id := "m1"; content := "hello" |}];
      Step_exit], Returns).
Proof. reflexivity. Qed.

Example invoke_stored_on_message_no_parameter :
  invoke (wrap_user_function (with_parent_id (function "main" [])) None)
    [Msg {| id := "m1"; content := "hello" |}]
  = ([Step_enter "on_message" "run" "m1";
      Step_input "hello";
      Call (function "main" []) [];
      Step_exit], Returns).
Proof. reflexivity. Qed.

Example invoke_with_parent_id_without_message :
  invoke (with_parent_id (function "main" ["message"])) [] = ([], Raises TypeError)
  ∧ invoke (with_parent_id (function "main" ["message"])) [Obj "text"]
    = ([], Raises AttributeError).
Proof. split; reflexivity. Qed.

(** ** Return value *)

(** C1: every registration function returns the function it was given,
    not the wrapper it stored: whenever a registration returns, the value
    is [func] itself, and the only call that does not return is
    [oauth_callback] with no provider configured.  In particular
    [on_message], [on_chat_start], [data_layer] and the decorator that
    [action_callback(name)] produces return [func]. *)
Theorem registration_returns_func :
  (∀ h func s,
     match register h func s with
     | Return v _ => v = func
     | Raise _ _ =>
         h = Decorator attr.oauth_callback ∧ configured_oauth_providers s = []
     end)
  ∧ (∀ func s, ∃ s', callbacks.on_message func s = Return func s')
  ∧ (∀ func s, ∃ s', callbacks.on_chat_start func s = Return func s')
  ∧ (∀ func s, ∃ s', callbacks.data_layer func s = Return func s')
  ∧ (∀ name s, ∃ decorator,
       callbacks.action_callback name s = Return decorator s
       ∧ ∀ func s0, ∃ s', decorator func s0 = Return func s').
Proof.
  repeat split; try (intros; eexists; reflexivity).
  - intros h func s. rewrite register_run.
    destruct (precondition h s) eqn:E; [done|].
    destruct h as [[]|name]; try discriminate E. split; [done|].
    simpl in E. by destruct (configured_oauth_providers s).
  - intros name s. exists (callbacks.decorator name). split; [done|].
    intros func s0. eexists; reflexivity.
Qed.

(** ** Stored value *)

(** C2, as stated, fails: after [on_message(func)] the [on_message] slot
    holds the wrapper of the closure [with_parent_id], which is not
    [func]. *)
Lemma slot_equals_func_counterexample :
  code.on_message
    (config_code
       (final (callbacks.on_message (function "main" ["message"])
                 (startup []))))
  = Some (wrap_user_function
            (with_parent_id (function "main" ["message"])) None)
  ∧ ¬ (code.on_message
         (config_code
            (final (callbacks.on_message (function "main" ["message"])
                      (startup []))))
       = Some (function "main" ["message"])).
Proof. split; [reflexivity | discriminate]. Qed.

(** C2, amended: after a registration that does not raise, the slot of
    the registration function holds the wrapped form of [func]
    ([wrap_user_function] of [func], of [step(func, ...)] or of the
    [with_parent_id] closure around [func]); it is [func] itself for
    [data_layer] and for no other registration function. *)
Theorem slot_holds_stored_func h func s :
  ¬ raises (register h func s) →
  read (target h) (final (register h func s)) = Some (stored h func)
  ∧ (stored h func = func ↔ h = Decorator attr.data_layer).
Proof.
  intros Hok. split; [|apply stored_is_func].
  rewrite final_register. destruct (precondition h s) eqn:E.
  - apply read_store_eq.
  - exfalso. apply Hok. by apply register_raises.
Qed.

Lemma slot_holds_stored_func_witness :
  ¬ raises (register (Decorator attr.on_chat_start)
              (function "start" []) (startup []))
  ∧ read (Attr attr.on_chat_start)
      (final (register (Decorator attr.on_chat_start)
                (function "start" []) (startup [])))
    = Some (wrap_user_function
              (step (function "start" []) "on_chat_start" "run")
              (Some true)).
Proof.
  split.
  - simpl. tauto.
  - apply (slot_holds_stored_func (Decorator attr.on_chat_start)
             (function "start" []) (startup [])).
    simpl. tauto.
Defined.

(** ** The precondition of oauth_callback *)

(** C3: [oauth_callback] raises exactly when no OAuth provider is
    configured at registration time; with at least one provider it puts
    [wrap_user_function(func)] in the [oauth_callback] slot and returns
    [func]. *)
Theorem oauth_callback_raises_iff_no_provider func s :
  (raises (callbacks.oauth_callback func s)
   ↔ length (configured_oauth_providers s) = 0)
  ∧ (0 < length (configured_oauth_providers s) →
     callbacks.oauth_callback func s
     = Return func
         {| configured_oauth_providers := configured_oauth_providers s;
            config_code :=
              setattr attr.oauth_callback
                (Some (wrap_user_function func None)) (config_code s) |}).
Proof.
  pose proof (register_run (Decorator attr.oauth_callback) func s) as Hrun.
  simpl in Hrun. rewrite Hrun.
  destruct (Nat.eqb_spec (length (configured_oauth_providers s)) 0) as [E|E];
    simpl.
  - split; [tauto | lia].
  - split; [tauto | done].
Qed.

Lemma oauth_callback_raises_iff_no_provider_witness :
  0 < length (configured_oauth_providers (startup ["github"]))
  ∧ code.oauth_callback
      (config_code
         (final (callbacks.oauth_callback
                   (function "oauth" ["provider_id"; "token"])
                   (startup ["github"]))))
    = Some (wrap_user_function
              (function "oauth" ["provider_id"; "token"]) None).
Proof.
  split.
  - simpl. lia.
  - rewrite (proj2 (oauth_callback_raises_iff_no_provider
                      (function "oauth" ["provider_id"; "token"])
                      (startup ["github"]))).
    + reflexivity.
    + simpl. lia.
Defined.

(** C4: the check of [oauth_callback] is the only error in the file:
    every other registration function, for every argument and in every
    state, stores its value and returns; [oauth_callback] can raise. *)
Theorem only_oauth_callback_raises :
  (∀ h func s,
     h ≠ Decorator attr.oauth_callback →
     ∃ s', register h func s = Return func s'
           ∧ read (target h) s' = Some (stored h func))
  ∧ (∃ func s, raises (callbacks.oauth_callback func s)).
Proof.
  split.
  - intros h func s Hne. rewrite register_run.
    replace (precondition h s) with true
      by (by destruct h as [[]|name]).
    eexists; split; [reflexivity | apply read_store_eq].
  - exists (function "f" []), (startup []). by simpl.
Qed.

Lemma only_oauth_callback_raises_witness :
  Action_callback "approve" ≠ Decorator attr.oauth_callback
  ∧ ∃ s',
      register (Action_callback "approve")
        (function "on_approve" ["action"]) (startup [])
      = Return (function "on_approve" ["action"]) s'
      ∧ read (Action_callbacks_item "approve") s'
        = Some (wrap_user_function
                  (function "on_approve" ["action"]) (Some false)).
Proof.
  split.
  - discriminate.
  - apply (proj1 only_oauth_callback_raises (Action_callback "approve")).
    discriminate.
Defined.

(** C8: [oauth_callback] checks the providers before it assigns: when it
    raises (no provider configured) it leaves the state it found, so the
    [oauth_callback] slot and every other slot are unchanged. *)
Theorem oauth_callback_atomic_on_error func s :
  length (configured_oauth_providers s) = 0 →
  (∃ e, callbacks.oauth_callback func s = Raise e s)
  ∧ ∀ l, read l (final (callbacks.oauth_callback func s)) = read l s.
Proof.
  intros Hnone.
  pose proof (register_run (Decorator attr.oauth_callback) func s) as Hrun.
  simpl in Hrun. rewrite Hrun, Hnone. simpl. split; [by eexists | done].
Qed.

Lemma oauth_callback_atomic_on_error_witness :
  length (configured_oauth_providers
            (store (Attr attr.oauth_callback) (function "old" [])
               (startup [])))
  = 0
  ∧ read (Attr attr.oauth_callback)
      (final (callbacks.oauth_callback
                (function "oauth" ["provider_id"; "token"])
                (store (Attr attr.oauth_callback) (function "old" [])
                   (startup []))))
    = Some (function "old" []).
Proof.
  split.
  - reflexivity.
  - rewrite (proj2 (oauth_callback_atomic_on_error
                      (function "oauth" ["provider_id"; "token"])
                      (store (Attr attr.oauth_callback) (function "old" [])
                             (startup []))
                      eq_refl)).
    reflexivity.
Defined.

(** ** Frame *)

(** C5: every registration function writes exactly one slot, the one
    named after it, and leaves every other slot as it was; so two
    distinct registration functions never touch each other's slot. *)
Theorem registration_writes_one_slot :
  (∀ h l, writes h l ↔ l = target h)
  ∧ (∀ h func s l,
       l ≠ target h → read l (final (register h func s)) = read l s)
  ∧ (∀ f g func s,
       f ≠ g → read (target g) (final (register f func s)) = read (target g) s).
Proof.
  split; [|split].
  - intros h l. split.
    + intros (func & s & Hchanged).
      destruct (decide (l = target h)) as [|Hne]; [done|].
      by rewrite register_frame in Hchanged.
    + intros ->. apply register_writes_target.
  - intros h func s l. apply register_frame.
  - intros f g func s Hne. apply register_frame.
    intros Heq. apply Hne. by apply target_inj.
Qed.

Lemma registration_writes_one_slot_witness :
  Decorator attr.on_app_startup ≠ Action_callback "approve"
  ∧ read (Action_callbacks_item "approve")
      (final (register (Decorator attr.on_app_startup)
                (function "startup" [])
                (store (Action_callbacks_item "approve")
                   (function "old" ["action"]) (startup []))))
    = Some (function "old" ["action"]).
Proof.
  split.
  - discriminate.
  - etransitivity; [|reflexivity].
    apply (proj2 (proj2 registration_writes_one_slot)
             (Decorator attr.on_app_startup) (Action_callback "approve")).
    discriminate.
Defined.

(** ** One callback per slot *)

(** C6: a slot holds at most one callback ([read] gives an optional
    callable).  Every slot starts unset; registering a second function
    with the same registration function leaves the state that
    registering the second one alone leaves, so nothing of the first
    remains, and when the second registration succeeds the slot holds the
    value stored for the second function. *)
Theorem slot_holds_most_recent :
  (∀ providers l, read l (startup providers) = None)
  ∧ (∀ h f1 f2 s,
       let s1 := final (register h f1 s) in
       let s2 := final (register h f2 s1) in
       s2 = final (register h f2 s)
       ∧ (¬ raises (register h f2 s1) →
          read (target h) s2 = Some (stored h f2))).
Proof.
  split; [apply read_startup|].
  intros h f1 f2 s s1 s2. subst s1 s2.
  rewrite !final_register.
  destruct (precondition h s) eqn:E.
  - rewrite precondition_store, E. split; [apply store_store|].
    intros _. apply read_store_eq.
  - rewrite E. split; [done|].
    intros Hok. exfalso. apply Hok. by apply register_raises.
Qed.

Lemma slot_holds_most_recent_witness :
  ¬ raises (register (Decorator attr.on_stop) (function "second" [])
              (final (register (Decorator attr.on_stop)
                        (function "first" []) (startup []))))
  ∧ read (Attr attr.on_stop)
      (final (register (Decorator attr.on_stop) (function "second" [])
                (final (register (Decorator attr.on_stop)
                          (function "first" []) (startup [])))))
    = Some (wrap_user_function (function "second" []) None).
Proof.
  split.
  - simpl. tauto.
  - apply (proj2 (proj2 slot_holds_most_recent (Decorator attr.on_stop)
                    (function "first" []) (function "second" [])
                    (startup []))).
    simpl. tauto.
Defined.

(** ** data_layer *)

(** C7: [data_layer] does not wrap: after [data_layer(f)] the
    [data_layer] slot is [f] itself and the call returns [f]; and it is
    the one registration function whose slot ends up holding the
    function it was given. *)
Theorem data_layer_stores_func_itself :
  (∀ f s,
     callbacks.data_layer f s
     = Return f
         {| configured_oauth_providers := configured_oauth_providers s;
            config_code := setattr attr.data_layer (Some f) (config_code s) |}
     ∧ code.data_layer (config_code (final (callbacks.data_layer f s)))
       = Some f)
  ∧ (∀ h f s,
       ¬ raises (register h f s) →
       (read (target h) (final (register h f s)) = Some f
        ↔ h = Decorator attr.data_layer)).
Proof.
  split; [done|].
  intros h f s Hok. rewrite final_register.
  destruct (precondition h s) eqn:E.
  - rewrite read_store_eq. rewrite <- (stored_is_func h f).
    split; congruence.
  - exfalso. apply Hok. by apply register_raises.
Qed.

Lemma data_layer_stores_func_itself_witness :
  ¬ raises (register (Decorator attr.on_feedback)
              (function "feedback" ["feedback"]) (startup []))
  ∧ read (Attr attr.on_feedback)
      (final (register (Decorator attr.on_feedback)
                (function "feedback" ["feedback"]) (startup [])))
    ≠ Some (function "feedback" ["feedback"]).
Proof.
  split.
  - simpl. tauto.
  - intros Heq.
    apply (proj2 data_layer_stores_func_itself (Decorator attr.on_feedback)
             (function "feedback" ["feedback"]) (startup [])) in Heq.
    + discriminate Heq.
    + simpl. tauto.
Defined.

(** ** The wrapper stored by on_message *)

(** C9: [on_message(func)] stores a wrapper; called with a message, the
    stored callback opens the [on_message] step and calls [func] with
    the message when the signature of [func] has at least one parameter,
    and with no argument when it has none.  For a user function this is
    the one call recorded between entering and leaving the step. *)
Theorem on_message_dispatches_on_arity :
  (∀ func s message,
     ∃ wrapper,
       code.on_message (config_code (final (callbacks.on_message func s)))
       = Some wrapper
       ∧ wrapper ≠ func
       ∧ let args :=
           match parameters func with
           | [] => []
           | _ :: _ => [Msg message]
           end in
         invoke wrapper [Msg message]
         = ([Step_enter "on_message" "run" (id message);
             Step_input (content message)]
            ++ (invoke func args).1 ++ [Step_exit],
            (invoke func args).2))
  ∧ (∀ name s message,
       ∃ wrapper,
         code.on_message
           (config_code (final (callbacks.on_message (function name []) s)))
         = Some wrapper
         ∧ invoke wrapper [Msg message]
           = ([Step_enter "on_message" "run" (id message);
               Step_input (content message);
               Call (function name []) [];
               Step_exit], Returns))
  ∧ (∀ name p ps s message,
       ∃ wrapper,
         code.on_message
           (config_code
              (final (callbacks.on_message (function name (p :: ps)) s)))
         = Some wrapper
         ∧ invoke wrapper [Msg message]
           = ([Step_enter "on_message" "run" (id message);
               Step_input (content message);
               Call (function name (p :: ps)) [Msg message];
               Step_exit], Returns)).
Proof.
  split; [|split].
  - intros func s message.
    exists (wrap_user_function (with_parent_id func) None).
    split; [done|]. split.
    + intros Heq. apply (f_equal depth) in Heq. simpl in Heq. lia.
    + simpl. by destruct (parameters func).
  - intros name s message. by eexists.
  - intros name p ps s message. by eexists.
Qed.

(** ** action_callback *)

(** C10: [action_callback(name)] only builds the decorator and changes no
    state.  Applying the decorator to [func] puts
    [wrap_user_function(func, with_task=False)] under [name] in
    [action_callbacks] and returns [func]; entries under other names and
    all attributes keep their values; a second registration under
    [name] replaces the entry of the first and nothing else. *)
Theorem action_callback_curried_and_keyed name s :
  ∃ decorator,
    callbacks.action_callback name s = Return decorator s
    ∧ ∀ func s0,
        ∃ s1,
          decorator func s0 = Return func s1
          ∧ code.action_callbacks (config_code s1)
            = <[name := wrap_user_function func (Some false)]>
                (code.action_callbacks (config_code s0))
          ∧ code.action_callbacks (config_code s1) !! name
            = Some (wrap_user_function func (Some false))
          ∧ (∀ other, other ≠ name →
               code.action_callbacks (config_code s1) !! other
               = code.action_callbacks (config_code s0) !! other)
          ∧ (∀ a, getattr a (config_code s1) = getattr a (config_code s0))
          ∧ ∀ func',
              ∃ s2,
                decorator func' s1 = Return func' s2
                ∧ code.action_callbacks (config_code s2)
                  = <[name := wrap_user_function func' (Some false)]>
                      (code.action_callbacks (config_code s0))
                ∧ (∀ other, other ≠ name →
                     code.action_callbacks (config_code s2) !! other
                     = code.action_callbacks (config_code s0) !! other).
Proof.
  exists (callbacks.decorator name). split; [done|].
  intros func s0. eexists. split; [reflexivity|]. simpl.
  split; [done|]. split; [apply lookup_insert_eq|].
  split; [by intros other Hne; apply lookup_insert_ne|].
  split; [intros a; apply getattr_setitem|].
  intros func'. eexists. split; [reflexivity|]. simpl.
  split; [apply insert_insert_eq|].
  intros other Hne. by rewrite !lookup_insert_ne.
Qed.

Lemma action_callback_curried_and_keyed_witness :
  ∃ approve reject s1 s2,
    callbacks.action_callback "approve" (startup [])
    = Return approve (startup [])
    ∧ callbacks.action_callback "reject" (startup [])
      = Return reject (startup [])
    ∧ approve (function "on_approve" ["action"]) (startup [])
      = Return (function "on_approve" ["action"]) s1
    ∧ reject (function "on_reject" ["action"]) s1
      = Return (function "on_reject" ["action"]) s2
    ∧ code.action_callbacks (config_code s2) !! "approve"
      = Some (wrap_user_function (function "on_approve" ["action"])
                (Some false))
    ∧ code.action_callbacks (config_code s2) !! "reject"
      = Some (wrap_user_function (function "on_reject" ["action"])
                (Some false)).
Proof.
  destruct (action_callback_curried_and_keyed "approve" (startup []))
    as (approve & Happrove & Hstore_a).
  destruct (action_callback_curried_and_keyed "reject" (startup []))
    as (reject & Hreject & Hstore_r).
  destruct (Hstore_a (function "on_approve" ["action"]) (startup []))
    as (s1 & Hs1 & _ & Hget1 & _).
  destruct (Hstore_r (function "on_reject" ["action"]) s1)
    as (s2 & Hs2 & _ & Hget2 & Hother & _).
  exists approve, reject, s1, s2.
  repeat split; try assumption.
  rewrite (Hother "approve"); [exact Hget1 | discriminate].
Defined.


(** * Further properties of the registration functions *)

(** ** Stores to different slots *)

Lemma setattr_comm a b v w c :
  a ≠ b → setattr a v (setattr b w c) = setattr b w (setattr a v c).
Proof. destruct a, b; intros Hne; try reflexivity; by destruct Hne. Qed.

Lemma setitem_comm name name' v w c :
  name ≠ name' →
  setitem_action_callbacks name v (setitem_action_callbacks name' w c)
  = setitem_action_callbacks name' w (setitem_action_callbacks name v c).
Proof.
  intros Hne. unfold setitem_action_callbacks; simpl. f_equal.
  by apply insert_insert_ne.
Qed.

Lemma store_comm l l' v w s :
  l ≠ l' → store l v (store l' w s) = store l' w (store l v s).
Proof.
  intros Hne. destruct l as [a|name], l' as [b|name']; unfold store; simpl;
    f_equal.
  - apply setattr_comm. congruence.
  - apply setitem_comm. congruence.
Qed.

Lemma providers_store l v s :
  configured_oauth_providers (store l v s) = configured_oauth_providers s.
Proof. done. Qed.

Lemma providers_register h func s :
  configured_oauth_providers (final (register h func s))
  = configured_oauth_providers s.
Proof. rewrite final_register. by destruct (precondition h s). Qed.

Lemma precondition_register h g func s :
  precondition h (final (register g func s)) = precondition h s.
Proof.
  rewrite final_register. destruct (precondition g s); [|done].
  apply precondition_store.
Qed.

Lemma precondition_false h s :
  precondition h s = false
  ↔ h = Decorator attr.oauth_callback ∧ configured_oauth_providers s = [].
Proof.
  split.
  - intros E. destruct h as [[]|name]; try discriminate E. split; [done|].
    simpl in E. by destruct (configured_oauth_providers s).
  - intros [-> Hnone]. simpl. by rewrite Hnone.
Qed.

Lemma read_store l l' v s :
  read l' (store l v s) = if decide (l = l') then Some v else read l' s.
Proof.
  destruct (decide (l = l')) as [->|Hne].
  - apply read_store_eq.
  - by apply read_store_ne.
Qed.

(** X1: two distinct registration functions can be applied in either
    order: the configuration that results is the same. *)
Theorem registrations_commute h g f1 f2 s :
  h ≠ g →
  final (register g f2 (final (register h f1 s)))
  = final (register h f1 (final (register g f2 s))).
Proof.
  intros Hne. rewrite !final_register.
  destruct (precondition h s) eqn:Eh, (precondition g s) eqn:Eg;
    rewrite ?precondition_store, ?Eh, ?Eg; try done.
  apply store_comm. intros Heq. apply Hne. symmetry. by apply target_inj.
Qed.

Lemma registrations_commute_witness :
  Decorator attr.on_chat_start ≠ Action_callback "approve"
  ∧ final (register (Action_callback "approve")
             (function "on_approve" ["action"])
             (final (register (Decorator attr.on_chat_start)
                       (function "start" []) (startup []))))
    = final (register (Decorator attr.on_chat_start) (function "start" [])
               (final (register (Action_callback "approve")
                         (function "on_approve" ["action"]) (startup [])))).
Proof.
  split.
  - discriminate.
  - apply (registrations_commute (Decorator attr.on_chat_start)
             (Action_callback "approve")).
    discriminate.
Defined.

(** X2: decorators stack.  Because a registration returns the function
    it was given, feeding that result to a second registration function
    stores, in each of the two slots, the wrapper of the original
    function, not a wrapper of a wrapper. *)
Theorem decorators_stack h g func s :
  ¬ raises ((register h func ≫= register g) s) →
  ∃ s',
    (register h func ≫= register g) s = Return func s'
    ∧ read (target h) s' = Some (stored h func)
    ∧ read (target g) s' = Some (stored g func).
Proof.
  unfold mbind, M_bind. rewrite register_run.
  destruct (precondition h s) eqn:Eh; [|simpl; tauto].
  rewrite register_run, precondition_store.
  destruct (precondition g s) eqn:Eg; [|simpl; tauto].
  intros _. eexists. split; [reflexivity|]. split; [|apply read_store_eq].
  rewrite read_store. destruct (decide (target g = target h)) as [Heq|Hne].
  - by rewrite (target_inj _ _ Heq).
  - apply read_store_eq.
Qed.

Lemma decorators_stack_witness :
  ∃ s',
    (register (Decorator attr.on_chat_start) (function "hello" [])
     ≫= register (Decorator attr.on_chat_resume)) (startup [])
    = Return (function "hello" []) s'
    ∧ read (Attr attr.on_chat_start) s'
      = Some (wrap_user_function
                (step (function "hello" []) "on_chat_start" "run")
                (Some true))
    ∧ read (Attr attr.on_chat_resume) s'
      = Some (wrap_user_function (function "hello" []) (Some true)).
Proof.
  apply (decorators_stack (Decorator attr.on_chat_start)
           (Decorator attr.on_chat_resume) (function "hello" [])
           (startup [])).
  simpl. tauto.
Defined.

(** X3: there is no way to unregister: a slot that holds a callback
    still holds one after any registration, whether that registration
    returns or raises. *)
Theorem registration_never_unsets h func s l :
  is_Some (read l s) → is_Some (read l (final (register h func s))).
Proof.
  intros Hset. rewrite final_register.
  destruct (precondition h s); [|done].
  rewrite read_store. by destruct (decide (target h = l)).
Qed.

Lemma registration_never_unsets_witness :
  is_Some (read (Attr attr.on_stop)
             (final (register (Decorator attr.on_stop) (function "second" [])
                       (store (Attr attr.on_stop) (function "first" [])
                          (startup []))))).
Proof.
  apply (registration_never_unsets (Decorator attr.on_stop)
           (function "second" [])
           (store (Attr attr.on_stop) (function "first" []) (startup []))
           (Attr attr.on_stop)).
  simpl. by eexists.
Defined.

(** X4: no registration changes the configured OAuth providers, so
    whether [oauth_callback] raises does not depend on what was
    registered before it. *)
Theorem oauth_check_independent_of_registrations h func g s :
  configured_oauth_providers (final (register h func s))
  = configured_oauth_providers s
  ∧ (raises (callbacks.oauth_callback g (final (register h func s)))
     ↔ raises (callbacks.oauth_callback g s)).
Proof.
  split; [apply providers_register|].
  change (callbacks.oauth_callback g)
    with (register (Decorator attr.oauth_callback) g).
  by rewrite !register_raises, precondition_register.
Qed.

(** X5: the shape of the configuration is an invariant: at startup, and
    after any registration, every slot that is set holds a value of the
    form its own registration function stores (so, for example, the
    [on_message] slot only ever holds a wrapped [with_parent_id]
    closure). *)
Theorem shaped_invariant :
  (∀ providers, shaped (startup providers))
  ∧ (∀ h func s, shaped s → shaped (final (register h func s))).
Proof.
  split.
  - intros providers h c Hread. by rewrite read_startup in Hread.
  - intros h func s Hshaped g c. rewrite final_register.
    destruct (precondition h s); [|apply Hshaped].
    rewrite read_store. destruct (decide (target h = target g)) as [Heq|Hne].
    + intros [= <-]. exists func. by rewrite (target_inj _ _ Heq).
    + apply Hshaped.
Qed.

Lemma shaped_invariant_witness :
  shaped (final (register (Decorator attr.on_message)
                   (function "main" ["message"]) (startup []))).
Proof.
  apply (proj2 shaped_invariant (Decorator attr.on_message)
           (function "main" ["message"]) (startup [])).
  apply (proj1 shaped_invariant []).
Defined.

(** ** Calls of the stored callbacks *)






(** ** Runs of several registrations *)

Lemma register_all_cons h func rs s :
  register_all ((h, func) :: rs) s =
    if precondition h s
    then register_all rs (store (target h) (stored h func) s)
    else Raise (ValueError "You must set the environment variable for at least one oauth provider to use oauth authentication.") s.
Proof.
  simpl. unfold mbind, M_bind. rewrite register_run.
  by destruct (precondition h s).
Qed.

Lemma last_stored_is_Some l rs before :
  is_Some (last_stored l rs before)
  ↔ is_Some before ∨ ∃ h func, (h, func) ∈ rs ∧ target h = l.
Proof.
  revert before. induction rs as [|[h func] rs IH]; intros before; simpl.
  - split; [auto|]. intros [|(h & func & Hin & _)]; [done|].
    by apply elem_of_nil in Hin.
  - rewrite IH. split.
    + intros [Hset|(h' & func' & Hin & Heq)].
      * destruct (decide (target h = l)) as [Heq|Hne]; [|by left].
        right. exists h, func. split; [apply list_elem_of_here | done].
      * right. exists h', func'. split; [by apply list_elem_of_further | done].
    + intros [Hset|(h' & func' & Hin & Heq)].
      * left. by destruct (decide (target h = l)).
      * apply elem_of_cons in Hin as [[= -> ->]|Hin].
        -- left. by rewrite decide_True.
        -- right. eauto.
Qed.

Lemma register_all_read rs s s' l :
  register_all rs s = Return () s' →
  read l s' = last_stored l rs (read l s).
Proof.
  revert s. induction rs as [|[h func] rs IH]; intros s.
  - by intros [= <-].
  - rewrite register_all_cons. destruct (precondition h s); [|done].
    intros Hrun. rewrite (IH _ Hrun). simpl. by rewrite read_store.
Qed.

(** X8: the last registration wins.  When a run of registrations
    completes, every slot holds the value stored by the last
    registration of the run aimed at it, and its earlier value when the
    run has none; slots the run does not aim at are unchanged. *)
Theorem register_all_last_wins rs s s' l :
  register_all rs s = Return () s' →
  read l s' = last_stored l rs (read l s)
  ∧ ((∀ h func, (h, func) ∈ rs → target h ≠ l) → read l s' = read l s).
Proof.
  intros Hrun. rewrite (register_all_read _ _ _ l Hrun). split; [done|].
  clear Hrun. generalize (read l s) as before.
  induction rs as [|[h func] rs IH]; intros before Hnone; simpl; [done|].
  rewrite IH.
  - rewrite decide_False; [done|]. apply (Hnone h func), list_elem_of_here.
  - intros h' func' Hin. apply (Hnone h' func'). by apply list_elem_of_further.
Qed.

Lemma register_all_last_wins_witness :
  read (Attr attr.on_stop)
    (store (Attr attr.on_stop)
       (wrap_user_function (function "second" []) None)
       (store (Action_callbacks_item "approve")
          (wrap_user_function (function "on_approve" ["action"]) (Some false))
          (store (Attr attr.on_stop)
             (wrap_user_function (function "first" []) None) (startup []))))
  = Some (wrap_user_function (function "second" []) None).
Proof.
  apply (proj1 (register_all_last_wins
                  [(Decorator attr.on_stop, function "first" []);
                   (Action_callback "approve",
                    function "on_approve" ["action"]);
                   (Decorator attr.on_stop, function "second" [])]
                  (startup []) _ (Attr attr.on_stop) eq_refl)).
Defined.

(** X9: a run of registrations raises exactly when no OAuth provider is
    configured and the run contains a use of [oauth_callback]; with a
    provider configured, or without [oauth_callback], it always
    completes. *)
Theorem register_all_raises_iff rs s :
  raises (register_all rs s)
  ↔ configured_oauth_providers s = []
    ∧ ∃ func, (Decorator attr.oauth_callback, func) ∈ rs.
Proof.
  revert s. induction rs as [|[h func] rs IH]; intros s.
  - simpl. split; [done|]. intros (_ & func & Hin). by apply elem_of_nil in Hin.
  - rewrite register_all_cons. destruct (precondition h s) eqn:E.
    + rewrite IH, providers_store. split.
      * intros (Hnone & func' & Hin). split; [done|].
        exists func'. by apply list_elem_of_further.
      * intros (Hnone & func' & Hin). split; [done|].
        apply elem_of_cons in Hin as [[= <- <-]|Hin]; [|eauto].
        assert (precondition (Decorator attr.oauth_callback) s = false)
          by by apply precondition_false.
        congruence.
    + apply precondition_false in E as [-> Hnone]. simpl. split; [|done].
      intros _. split; [done|]. exists func. apply list_elem_of_here.
Qed.

(** X10: from startup, a completed run of registrations leaves a slot
    set exactly when the run contains a registration aimed at it: an
    attribute is set when its decorator was used, a name is in
    [action_callbacks] when [action_callback] was used with that name. *)
Theorem register_all_sets_exactly providers rs s' l :
  register_all rs (startup providers) = Return () s' →
  (is_Some (read l s') ↔ ∃ h func, (h, func) ∈ rs ∧ target h = l).
Proof.
  intros Hrun. rewrite (register_all_read _ _ _ l Hrun).
  rewrite last_stored_is_Some, read_startup. split; [|auto].
  intros [Hset|]; [|done]. by destruct Hset.
Qed.

Lemma register_all_sets_exactly_witness :
  is_Some (read (Action_callbacks_item "approve")
             (store (Action_callbacks_item "approve")
                (wrap_user_function (function "on_approve" ["action"])
                   (Some false))
                (store (Attr attr.on_stop)
                   (wrap_user_function (function "stop" []) None)
                   (startup []))))
  ↔ ∃ h func,
      (h, func) ∈ [(Decorator attr.on_stop, function "stop" []);
                   (Action_callback "approve",
                    function "on_approve" ["action"])]
      ∧ target h = Action_callbacks_item "approve".
Proof.
  apply (register_all_sets_exactly []
           [(Decorator attr.on_stop, function "stop" []);
            (Action_callback "approve", function "on_approve" ["action"])]
           _ (Action_callbacks_item "approve") eq_refl).
Defined.
